(** * computeSales.py: the sales aggregation and its report

    A shallow embedding of [load_json_file], [compute_total_cost] and [main]
    of [computeSales.py], followed by the properties of the program.

    Python values are dynamically typed, so the embedding works on a type of
    parsed documents ([value]) and every operation that Python may refuse
    returns a [result].  Printing, reading the clock, opening and writing
    files are threaded through a [world]. *)

From Stdlib Require Import List String Ascii Bool Arith ZArith Lia.
From Stdlib Require Import DecimalString FinFun Permutation.
Import ListNotations.
Local Open Scope list_scope.
Local Open Scope string_scope.
Set Warnings "-register-all".

(* ================================================================= *)
(** ** Exceptions and results *)

(** The exceptions that the calls made by the script can raise. *)
Inductive exn : Type :=
| FileNotFoundError
| PermissionError
| IsADirectoryError
| UnicodeDecodeError
| JSONDecodeError
| KeyError (key : string)
| TypeError.

Inductive result (A : Type) : Type :=
| Ok (a : A)
| Raise (e : exn).
Arguments Ok {A} a.
Arguments Raise {A} e.

Definition rbind {A B} (r : result A) (k : A -> result B) : result B :=
  match r with
  | Ok a => k a
  | Raise e => Raise e
  end.

(* ================================================================= *)
(** ** Numbers

    The numbers of a document are Python [int]s and [float]s.  The script
    only adds, multiplies, subtracts, compares and formats them, so they are
    kept behind an interface; nothing is assumed of the operations, in
    particular neither associativity nor commutativity, which [float]s do not
    have.  [zero] is the literal [0], [num_eqb] is [==], [str_num] is
    [f'{x}'], [fmt_2f] is [f'{x:.2f}'] and [fmt_6f] is [f'{x:.6f}'].
    The operations are taken to be total: the [OverflowError] that Python
    raises when an integer beyond the range of a [float] meets a [float]
    is outside the model. *)
Class Number : Type := {
  num : Type;
  zero : num;
  add : num -> num -> num;
  mul : num -> num -> num;
  sub : num -> num -> num;
  num_eqb : num -> num -> bool;
  str_num : num -> string;
  fmt_2f : num -> string;
  fmt_6f : num -> string
}.

(* ================================================================= *)
(** ** String helpers of the report *)

(** [s * n] on strings. *)
Fixpoint str_repeat (s : string) (n : nat) : string :=
  match n with
  | O => ""
  | S n' => s ++ str_repeat s n'
  end.

(** The format specifications [:>w], [:<w] and [:^w]; a text longer than
    [w] is left as it is. *)
Definition rjust (s : string) (w : nat) : string :=
  str_repeat " " (w - String.length s) ++ s.

Definition ljust (s : string) (w : nat) : string :=
  s ++ str_repeat " " (w - String.length s).

Definition center (s : string) (w : nat) : string :=
  let pad := w - String.length s in
  str_repeat " " (pad / 2) ++ s ++ str_repeat " " (pad - pad / 2).

(** The concatenation of the pieces of a text. *)
Definition str_join (l : list string) : string := fold_right append "" l.

(* ================================================================= *)
(** ** Insertion-ordered dictionaries

    A Python [dict] keeps its items in insertion order; it is modelled as
    an association list whose keys are compared with [eqb]. *)

(** [d[k]] and [k in d] *)
Fixpoint alist_get {K V : Type} (eqb : K -> K -> bool) (k : K)
    (d : list (K * V)) : option V :=
  match d with
  | [] => None
  | (k', v) :: d' => if eqb k' k then Some v else alist_get eqb k d'
  end.

(** [d[k] = v]: a key already present keeps its place and takes the new
    value, a new key goes to the end. *)
Fixpoint alist_set {K V : Type} (eqb : K -> K -> bool) (k : K) (v : V)
    (d : list (K * V)) : list (K * V) :=
  match d with
  | [] => [(k, v)]
  | (k', v') :: d' =>
      if eqb k' k then (k', v) :: d' else (k', v') :: alist_set eqb k v d'
  end.

(** Dictionaries with string keys. *)
Definition assoc {V : Type} (k : string) (d : list (string * V)) : option V :=
  alist_get String.eqb k d.

Definition assoc_set {V : Type} (k : string) (v : V) (d : list (string * V))
  : list (string * V) :=
  alist_set String.eqb k v d.

Section Program.

Context {N : Number}.

(* ================================================================= *)
(** ** Documents *)

(** What [json.load] returns: [None], a number, a string (a sequence of
    characters, each an [ascii]), a list or a dictionary with string keys,
    kept in insertion order.  Booleans, which Python counts among the
    integers, are left out of the model. *)
Inductive value : Type :=
| VNone
| VNum (n : num)
| VStr (s : string)
| VList (l : list value)
| VDict (d : list (string * value)).

(** [v[k]] for a string constant [k]: only a dictionary accepts a string
    subscript, and it raises [KeyError] when the key is missing. *)
Definition getitem (v : value) (k : string) : result value :=
  match v with
  | VDict d =>
      match assoc k d with
      | Some x => Ok x
      | None => Raise (KeyError k)
      end
  | _ => Raise TypeError
  end.

(** [iter(v)]: a list yields its items, a dictionary its keys, a string its
    characters; [None] and numbers are not iterable. *)
Definition py_iter (v : value) : result (list value) :=
  match v with
  | VList l => Ok l
  | VDict d => Ok (map (fun kv => VStr (fst kv)) d)
  | VStr s => Ok (map (fun c => VStr (String c "")) (list_ascii_of_string s))
  | VNone | VNum _ => Raise TypeError
  end.

(* ================================================================= *)
(** ** Python dictionaries built by the script *)

(** The values that can be keys of a [dict]. *)
Inductive hkey : Type :=
| KNone
| KNum (n : num)
| KStr (s : string).

(** [hash(v)]: lists and dictionaries are unhashable. *)
Definition as_key (v : value) : result hkey :=
  match v with
  | VNone => Ok KNone
  | VNum n => Ok (KNum n)
  | VStr s => Ok (KStr s)
  | VList _ | VDict _ => Raise TypeError
  end.

Definition key_eqb (a b : hkey) : bool :=
  match a, b with
  | KNone, KNone => true
  | KNum x, KNum y => num_eqb x y
  | KStr s, KStr t => String.eqb s t
  | _, _ => false
  end.

(** [f'{k}'] *)
Definition key_str (k : hkey) : string :=
  match k with
  | KNone => "None"
  | KNum n => str_num n
  | KStr s => s
  end.

Definition dict (V : Type) : Type := list (hkey * V).

Definition dict_get {V : Type} (k : hkey) (d : dict V) : option V :=
  alist_get key_eqb k d.

Definition dict_set {V : Type} (k : hkey) (v : V) (d : dict V) : dict V :=
  alist_set key_eqb k v d.

(* ================================================================= *)
(** ** The world and the monad of the script *)

(** [stdout] holds the arguments of the successive [print] calls, [opened]
    the paths handed to [open] for reading, [written] the files written
    (path and content, oldest first) and [ticks] the number of clock
    readings. *)
Record world : Type := World {
  stdout : list string;
  opened : list string;
  written : list (string * string);
  ticks : nat
}.

(** What the surroundings answer: [open_json f] is the outcome of
    [json.load(open(f, 'r', encoding='utf-8'))] and [clock k] is the value
    of the [k]-th call of [time.time()]. *)
Record env : Type := Env {
  open_json : string -> result value;
  clock : nat -> num
}.

Definition M (A : Type) : Type := world -> world * result A.

Definition ret {A} (a : A) : M A := fun w => (w, Ok a).

Definition raise {A} (e : exn) : M A := fun w => (w, Raise e).

Definition bind {A B} (c : M A) (k : A -> M B) : M B :=
  fun w =>
    match c w with
    | (w', Ok a) => k a w'
    | (w', Raise e) => (w', Raise e)
    end.

Definition lift {A} (r : result A) : M A := fun w => (w, r).

Notation "x <- c ;; k" := (bind c (fun x => k))
  (at level 61, c at next level, right associativity).
Notation "c ;;; k" := (bind c (fun _ => k))
  (at level 61, right associativity).

(** [print(s)] *)
Definition print (s : string) : M unit :=
  fun w =>
    (World (stdout w ++ [s])%list (opened w) (written w) (ticks w), Ok tt).

(** [time.time()] *)
Definition time_time (e : env) : M num :=
  fun w => (World (stdout w) (opened w) (written w) (S (ticks w)),
            Ok (clock e (ticks w))).

(** [with open(path, 'w', encoding='utf-8') as f: f.write(text)]; the
    working directory is taken to be writable. *)
Definition write_file (path text : string) : M unit :=
  fun w =>
    (World (stdout w) (opened w) (written w ++ [(path, text)])%list
           (ticks w),
     Ok tt).

(** The text that the display stream has received: [print] ends each
    argument with a newline. *)
Definition newline : string := String (ascii_of_nat 10) "".

Definition display_lines (l : list string) : string :=
  str_join (map (fun s => s ++ newline) l).

Definition display_text (w : world) : string := display_lines (stdout w).

(** The content of the file at [path] after the run. *)
Definition file_content (path : string) (w : world) : option string :=
  assoc path (rev (written w)).

(* ================================================================= *)
(** ** [load_json_file] *)

Definition not_found_message (filename : string) : string :=
  "Error: File '" ++ filename ++ "' not found.".

Definition invalid_json_message (filename : string) : string :=
  "Error: Invalid JSON format in '" ++ filename ++ "'.".

Definition load_json_file (e : env) (filename : string) : M value :=
  fun w =>
    let w1 :=
      World (stdout w) (opened w ++ [filename])%list (written w) (ticks w) in
    match open_json e filename with
    | Ok v => (w1, Ok v)
    | Raise FileNotFoundError =>
        (print (not_found_message filename) ;;; ret VNone) w1
    | Raise JSONDecodeError =>
        (print (invalid_json_message filename) ;;; ret VNone) w1
    | Raise x => (w1, Raise x)
    end.

(* ================================================================= *)
(** ** [compute_total_cost] *)

(** The dictionary comprehension
    [{item['title']: item['price'] for item in price_catalogue}]: per item
    the key is evaluated, then the value, then the pair is stored. *)
Fixpoint build_price_dict (items : list value) (d : dict value)
  : result (dict value) :=
  match items with
  | [] => Ok d
  | item :: rest =>
      rbind (getitem item "title") (fun title =>
      rbind (getitem item "price") (fun price =>
      rbind (as_key title) (fun k =>
      build_price_dict rest (dict_set k price d))))
  end.

(** The three variables of the loop: [total_cost], [total_quantity] and
    [unitary_cost], whose values are the two-element lists
    [[quantity, cost]]. *)
Definition totals : Type := (num * num * dict (num * num))%type.

Definition warning (product : string) : string :=
  "Warning: Product ID '" ++ product ++ "' not found in the price catalogue.".

(** The body of [for sale in sales_record].  In
    [total_cost += item_price * quantity] the total is a number, so the
    statement raises [TypeError] unless both operands are numbers: either
    the product is refused, or it is a string or a list, which a number
    does not add to. *)
Definition sale_body (price_catalogue_dict : dict value) (t : totals)
    (sale : value) : M totals :=
  let '(total_cost, total_quantity, unitary_cost) := t in
  product <- lift (getitem sale "Product") ;;
  quantity <- lift (getitem sale "Quantity") ;;
  product_sold <- lift (as_key product) ;;
  match dict_get product_sold price_catalogue_dict with
  | Some item_price =>
      match item_price, quantity with
      | VNum p, VNum q =>
          let total_cost := add total_cost (mul p q) in
          let total_quantity := add total_quantity q in
          match dict_get product_sold unitary_cost with
          | None =>
              ret (total_cost, total_quantity,
                   dict_set product_sold (q, mul p q) unitary_cost)
          | Some (q0, c0) =>
              ret (total_cost, total_quantity,
                   dict_set product_sold (add q0 q, add c0 (mul p q))
                     unitary_cost)
          end
      | _, _ => raise TypeError
      end
  | None =>
      print (warning (key_str product_sold)) ;;; ret t
  end.

Fixpoint sales_loop (price_catalogue_dict : dict value) (sales : list value)
    (t : totals) : M totals :=
  match sales with
  | [] => ret t
  | sale :: rest =>
      t' <- sale_body price_catalogue_dict t sale ;;
      sales_loop price_catalogue_dict rest t'
  end.

Definition compute_total_cost (price_catalogue sales_record : value)
  : M totals :=
  items <- lift (py_iter price_catalogue) ;;
  price_catalogue_dict <- lift (build_price_dict items []) ;;
  sales <- lift (py_iter sales_record) ;;
  sales_loop price_catalogue_dict sales (zero, zero, []).

(* ================================================================= *)
(** ** [main] *)

Definition usage : string :=
  "Usage: python computeSales.py priceCatalogue.json salesRecord.json".

Definition line_sep_str : string :=
  "+" ++ str_repeat "-" 32 ++ "+" ++ str_repeat "-" 32 ++ "+"
      ++ str_repeat "-" 32 ++ "+" ++ newline.

Definition header_row : string :=
  "| " ++ center "Product" 30 ++ " | " ++ center "Quantity" 30 ++ " | "
       ++ center "Total Unit Cost" 30 ++ " |" ++ newline.

Definition product_row (entry : hkey * (num * num)) : string :=
  let '(product_sold, (quantity, cost)) := entry in
  "| " ++ rjust (key_str product_sold) 30 ++ " | "
       ++ rjust (str_num quantity) 30 ++ " | "
       ++ rjust ("$" ++ fmt_2f cost) 30 ++ " |" ++ newline.

Definition totals_row (total_amount total_cost : num) : string :=
  "| " ++ ljust "Total Cost of Sales" 30 ++ " | "
       ++ rjust (str_num total_amount) 30 ++ " | "
       ++ rjust ("$" ++ fmt_2f total_cost) 30 ++ " |" ++ newline.

Definition elapsed_row (elapsed_time : num) : string :=
  ("| " ++ ljust "Time Elapsed" 30 ++ " | "
        ++ rjust (fmt_6f elapsed_time ++ " seconds") 30 ++ " |")
  ++ str_repeat "x" 32 ++ "|" ++ newline.

(** The pieces appended to [report_str], in order. *)
Definition report_rows (t : totals) (elapsed_time : num) : list string :=
  let '(total_cost, total_amount, unitary_cost) := t in
  ([line_sep_str; header_row; line_sep_str]
   ++ map product_row unitary_cost
   ++ [line_sep_str; totals_row total_amount total_cost; line_sep_str;
       elapsed_row elapsed_time; line_sep_str])%list.

Definition report_str (t : totals) (elapsed_time : num) : string :=
  str_join (report_rows t elapsed_time).

Definition is_None (v : value) : bool :=
  match v with
  | VNone => true
  | _ => false
  end.

(** [argv] is [sys.argv]: the script's name, then the arguments. *)
Definition main (e : env) (argv : list string) : M unit :=
  if negb (Nat.eqb (List.length argv) 3) then print usage
  else
    start_time <- time_time e ;;
    let price_catalogue_file := nth 1 argv "" in
    let sales_record_file := nth 2 argv "" in
    price_catalogue <- load_json_file e price_catalogue_file ;;
    if is_None price_catalogue then ret tt
    else
      sales_record <- load_json_file e sales_record_file ;;
      if is_None sales_record then ret tt
      else
        t <- compute_total_cost price_catalogue sales_record ;;
        end_time <- time_time e ;;
        let elapsed_time := sub end_time start_time in
        let text := report_str t elapsed_time in
        print text ;;;
        write_file "SalesResults.txt" text.

(* ================================================================= *)
(** ** Documents of the expected shape

    The catalogue is expected to be a list of objects with a string [title]
    and a numeric [price], the sales record a list of objects with a string
    [Product] and a numeric [Quantity]; other fields may be present.  The
    views below read such a document as a list of pairs. *)

Definition record_view (name_field num_field : string) (v : value)
  : option (string * num) :=
  match v with
  | VDict d =>
      match assoc name_field d, assoc num_field d with
      | Some (VStr s), Some (VNum n) => Some (s, n)
      | _, _ => None
      end
  | _ => None
  end.

Fixpoint records_view (name_field num_field : string) (l : list value)
  : option (list (string * num)) :=
  match l with
  | [] => Some []
  | v :: l' =>
      match record_view name_field num_field v,
            records_view name_field num_field l' with
      | Some r, Some rs => Some (r :: rs)
      | _, _ => None
      end
  end.

Definition catalogue_view (v : value) : option (list (string * num)) :=
  match v with
  | VList l => records_view "title" "price" l
  | _ => None
  end.

Definition sales_view (v : value) : option (list (string * num)) :=
  match v with
  | VList l => records_view "Product" "Quantity" l
  | _ => None
  end.

(* ================================================================= *)
(** ** The words of the specification *)

(** The price of a title: that of the last catalogue entry with the title. *)
Definition price_of (c : list (string * num)) (title : string) : option num :=
  assoc title (rev c).

(** A sale is matched when its product has a price. *)
Definition matched (c : list (string * num)) (sale : string * num) : bool :=
  match price_of c (fst sale) with
  | Some _ => true
  | None => false
  end.

(** [price(product) * quantity] of a sale. *)
Definition line_cost (c : list (string * num)) (sale : string * num) : num :=
  match price_of c (fst sale) with
  | Some p => mul p (snd sale)
  | None => zero
  end.

(** [sum(l)]: the items are added one after the other, starting from [0]. *)
Definition py_sum (l : list num) : num := fold_left add l zero.


(** The sales of one product. *)
Definition sales_of (product : string) (s : list (string * num))
  : list (string * num) :=
  filter (fun sale => String.eqb (fst sale) product) s.

Definition mem_string (x : string) (l : list string) : bool :=
  existsb (String.eqb x) l.

(** The items of [l] in the order of their first occurrence, leaving out
    those already [seen]. *)
Fixpoint first_occurrences (seen l : list string) : list string :=
  match l with
  | [] => []
  | x :: l' =>
      if mem_string x seen then first_occurrences seen l'
      else x :: first_occurrences (x :: seen) l'
  end.

(** The typed counterpart of [unitary_cost] after the sales [s], starting
    from [u]. *)
Fixpoint per_product (c : list (string * num)) (s : list (string * num))
    (u : list (string * (num * num))) : list (string * (num * num)) :=
  match s with
  | [] => u
  | (product, q) :: s' =>
      match price_of c product with
      | Some p =>
          match assoc product u with
          | None => per_product c s' (assoc_set product (q, mul p q) u)
          | Some (q0, c0) =>
              per_product c s'
                (assoc_set product (add q0 q, add c0 (mul p q)) u)
          end
      | None => per_product c s' u
      end
  end.

(** A dictionary with string keys as a Python [dict]. *)
Definition str_dict {V : Type} (u : list (string * V)) : dict V :=
  map (fun kv => (KStr (fst kv), snd kv)) u.

(** The catalogue stored entry by entry, as the comprehension does. *)
Definition store_prices (c : list (string * num)) (d : list (string * value))
  : list (string * value) :=
  fold_left (fun d e => assoc_set (fst e) (VNum (snd e)) d) c d.

(** A price dictionary [d] answers for the catalogue [c]. *)
Definition prices_agree (d : dict value) (c : list (string * num)) : Prop :=
  forall t, dict_get (KStr t) d = option_map VNum (price_of c t).

(** The texts that the loop can print. *)
Definition is_warning (line : string) : Prop :=
  exists k : hkey, line = warning (key_str k).

(** The character of a row next to its closing border: the last one of
    its third cell. *)
Definition fill_char (row : string) : option ascii :=
  String.get (String.length row - 3) row.

(** The world after more [print] calls. *)
Definition with_prints (w : world) (l : list string) : world :=
  World (stdout w ++ l)%list (opened w) (written w) (ticks w).

(** The warnings of a sales sequence: one per unmatched sale, in order. *)
Definition warnings (c s : list (string * num)) : list string :=
  map (fun sale => warning (fst sale))
      (filter (fun sale => negb (matched c sale)) s).


End Program.

(* ================================================================= *)
(** ** Integers as numbers

    Python's [int] with its own formatting: the instance at which the
    program is run on concrete documents. *)

Definition str_Z (z : Z) : string := NilZero.string_of_int (Z.to_int z).

#[export] Instance ZNumber : Number := {|
  num := Z;
  zero := 0%Z;
  add := Z.add;
  mul := Z.mul;
  sub := Z.sub;
  num_eqb := Z.eqb;
  str_num := str_Z;
  fmt_2f := fun z => str_Z z ++ ".00";
  fmt_6f := fun z => str_Z z ++ ".000000"
|}.

(* ================================================================= *)
(** ** Concrete documents and runs *)

Module Examples.

Definition entry (title : string) (price : Z) : value :=
  VDict [("title", VStr title); ("price", VNum price)].

Definition sale (product : string) (quantity : Z) : value :=
  VDict [("Product", VStr product); ("Quantity", VNum quantity)].

(** A catalogue in which the title [Apple] occurs twice. *)
Definition catalogue : value :=
  VList [entry "Apple" 2; entry "Pen" 1; entry "Apple" 3; entry "Ink" 4].

Definition catalogue_pairs : list (string * Z) :=
  [("Apple", 2); ("Pen", 1); ("Apple", 3); ("Ink", 4)]%Z.

(** Sales with a product sold twice and a product without a price. *)
Definition sales : value :=
  VList [sale "Pen" 2; sale "Apple" 3; sale "Ghost" 1; sale "Apple" 10].

Definition sales_pairs : list (string * Z) :=
  [("Pen", 2); ("Apple", 3); ("Ghost", 1); ("Apple", 10)]%Z.

(** The same titles in another order. *)
Definition catalogue_reordered : value :=
  VList [entry "Ink" 4; entry "Apple" 3; entry "Pen" 1].

Definition catalogue_reordered_pairs : list (string * Z) :=
  [("Ink", 4); ("Apple", 3); ("Pen", 1)]%Z.

(** Sales of unknown products only. *)
Definition ghost_sales : value := VList [sale "Ghost" 1; sale "Ghoul" 2].

Definition ghost_sales_pairs : list (string * Z) :=
  [("Ghost", 1); ("Ghoul", 2)]%Z.

Definition empty_world : world := World [] [] [] 0.

Definition argv : list string :=
  ["computeSales.py"; "priceCatalogue.json"; "salesRecord.json"].

Definition ticking (k : nat) : Z := Z.of_nat k.

(** Both files hold documents of the expected shape. *)
Definition env_shaped : env :=
  Env (fun f =>
         if String.eqb f "priceCatalogue.json" then Ok catalogue
         else if String.eqb f "salesRecord.json" then Ok sales
         else Raise FileNotFoundError)
      ticking.

(** Every sale is matched: the run prints the report and nothing else. *)
Definition env_all_matched : env :=
  Env (fun f =>
         if String.eqb f "priceCatalogue.json" then Ok catalogue
         else if String.eqb f "salesRecord.json"
              then Ok (VList [sale "Pen" 2])
         else Raise FileNotFoundError)
      ticking.

(** The catalogue is there and the sales record is missing. *)
Definition env_sales_missing : env :=
  Env (fun f =>
         if String.eqb f "priceCatalogue.json" then Ok catalogue
         else Raise FileNotFoundError)
      ticking.

(** No file at all. *)
Definition env_nothing : env := Env (fun _ => Raise FileNotFoundError) ticking.

(** The catalogue path exists and cannot be read. *)
Definition env_unreadable : env :=
  Env (fun f =>
         if String.eqb f "priceCatalogue.json" then Raise PermissionError
         else if String.eqb f "salesRecord.json" then Ok sales
         else Raise FileNotFoundError)
      ticking.

(** The catalogue file holds the JSON document [null]. *)
Definition env_null : env :=
  Env (fun f =>
         if String.eqb f "priceCatalogue.json" then Ok VNone
         else if String.eqb f "salesRecord.json" then Ok sales
         else Raise FileNotFoundError)
      ticking.


End Examples.

(** Documents of other shapes. *)
Module Shapes.

Import Examples.


(** A catalogue entry without [price]. *)
Definition entry_without_price : list (string * value) :=
  [("title", VStr "Ink")].




Definition long_name : string :=
  "A product name of more than thirty characters".

(** The sales of [Examples.sales] with the first two exchanged. *)
Definition sales_swapped : value :=
  VList [sale "Apple" 3; sale "Pen" 2; sale "Ghost" 1; sale "Apple" 10].

Definition sales_swapped_pairs : list (string * Z) :=
  [("Apple", 3); ("Pen", 2); ("Ghost", 1); ("Apple", 10)]%Z.

End Shapes.

(* ================================================================= *)
(** * Properties *)

Section Properties.

Context {N : Number}.

(* ----------------------------------------------------------------- *)
(** ** Association lists with string keys *)

Lemma assoc_cons {V : Type} (k k' : string) (v : V) (d : list (string * V)) :
  assoc k ((k', v) :: d) = if String.eqb k' k then Some v else assoc k d.
Proof. reflexivity. Qed.

Lemma assoc_app {V : Type} (k : string) (d1 d2 : list (string * V)) :
  assoc k (d1 ++ d2)%list =
  match assoc k d1 with
  | Some v => Some v
  | None => assoc k d2
  end.
Proof.
  induction d1 as [|[k' v'] d1 IH]; [reflexivity|].
  rewrite <- app_comm_cons, !assoc_cons.
  destruct (String.eqb k' k); [reflexivity | exact IH].
Qed.

Lemma assoc_set_same {V : Type} (k : string) (v : V) (d : list (string * V)) :
  assoc k (assoc_set k v d) = Some v.
Proof.
  unfold assoc, assoc_set. induction d as [|[k' v'] d IH]; cbn.
  - now rewrite String.eqb_refl.
  - destruct (String.eqb k' k) eqn:E; cbn; rewrite E; [reflexivity | exact IH].
Qed.

Lemma assoc_set_other {V : Type} (k k0 : string) (v : V)
    (d : list (string * V)) :
  k <> k0 -> assoc k0 (assoc_set k v d) = assoc k0 d.
Proof.
  intros Hne. apply String.eqb_neq in Hne. unfold assoc, assoc_set.
  induction d as [|[k' v'] d IH]; cbn.
  - now rewrite Hne.
  - destruct (String.eqb k' k) eqn:E; cbn.
    + apply String.eqb_eq in E. subst k'. now rewrite Hne.
    + now rewrite IH.
Qed.



(* ----------------------------------------------------------------- *)
(** ** String-keyed dictionaries as Python dictionaries *)

Lemma dict_get_str {V : Type} (k : string) (u : list (string * V)) :
  dict_get (KStr k) (str_dict u) = assoc k u.
Proof.
  unfold dict_get, assoc. induction u as [|[k' v'] u IH]; cbn; [reflexivity|].
  destruct (String.eqb k' k); [reflexivity | exact IH].
Qed.

Lemma dict_set_str {V : Type} (k : string) (v : V) (u : list (string * V)) :
  dict_set (KStr k) v (str_dict u) = str_dict (assoc_set k v u).
Proof.
  unfold dict_set, assoc_set.
  induction u as [|[k' v'] u IH]; cbn; [reflexivity|].
  destruct (String.eqb k' k); cbn; [reflexivity|].
  f_equal. exact IH.
Qed.


(* ----------------------------------------------------------------- *)
(** ** The price dictionary *)

Lemma record_view_getitem (nf qf : string) (v : value) (s : string) (n : num) :
  record_view nf qf v = Some (s, n) ->
  getitem v nf = Ok (VStr s) /\ getitem v qf = Ok (VNum n).
Proof.
  destruct v as [| |? |? |d]; cbn; try discriminate.
  destruct (assoc nf d) as [[| |? |? |?]|]; try discriminate.
  destruct (assoc qf d) as [[|? | |? |?]|]; try discriminate.
  intros H. injection H as -> ->. split; reflexivity.
Qed.

Lemma records_view_cons (nf qf : string) (v : value) (l : list value)
    (rs : list (string * num)) :
  records_view nf qf (v :: l) = Some rs ->
  exists r rs', rs = r :: rs' /\ record_view nf qf v = Some r
                /\ records_view nf qf l = Some rs'.
Proof.
  cbn. destruct (record_view nf qf v) as [r|]; [|discriminate].
  destruct (records_view nf qf l) as [rs'|]; [|discriminate].
  intros H. injection H as <-. now exists r, rs'.
Qed.

Lemma build_price_dict_view (items : list value) (c : list (string * num)) :
  records_view "title" "price" items = Some c ->
  forall d,
    build_price_dict items (str_dict d) = Ok (str_dict (store_prices c d)).
Proof.
  revert c. induction items as [|item items IH]; intros c Hv d.
  - cbn in Hv. injection Hv as <-. reflexivity.
  - apply records_view_cons in Hv as ([t p] & c' & -> & Hr & Hrs).
    apply record_view_getitem in Hr as [Ht Hp].
    cbn [build_price_dict]. rewrite Ht, Hp. cbn [rbind as_key].
    rewrite dict_set_str. apply (IH _ Hrs).
Qed.

Lemma store_prices_get (c : list (string * num)) (t : string) :
  forall d, assoc t (store_prices c d) =
            match price_of c t with
            | Some p => Some (VNum p)
            | None => assoc t d
            end.
Proof.
  unfold price_of.
  induction c as [|[t' p'] c IH]; intros d; [reflexivity|].
  cbn [store_prices fold_left fst snd rev].
  fold (store_prices c (assoc_set t' (VNum p') d)). rewrite IH, assoc_app.
  destruct (assoc t (rev c)); [reflexivity|].
  rewrite assoc_cons. destruct (String.eqb t' t) eqn:E.
  - apply String.eqb_eq in E. subst t'. apply assoc_set_same.
  - apply String.eqb_neq in E. cbn. now apply assoc_set_other.
Qed.

Lemma build_price_dict_agrees (items : list value) (c : list (string * num)) :
  records_view "title" "price" items = Some c ->
  exists d, build_price_dict items [] = Ok d /\ prices_agree d c.
Proof.
  intros Hv. exists (str_dict (store_prices c [])). split.
  - exact (build_price_dict_view items c Hv []).
  - intros t. rewrite dict_get_str, store_prices_get.
    now destruct (price_of c t).
Qed.

(* ----------------------------------------------------------------- *)
(** ** The loop over the sales *)

Lemma with_prints_nil (w : world) : with_prints w [] = w.
Proof. destruct w. unfold with_prints. cbn. now rewrite app_nil_r. Qed.

Lemma with_prints_app (w : world) (a b : list string) :
  with_prints (with_prints w a) b = with_prints w (a ++ b)%list.
Proof. unfold with_prints. cbn. now rewrite app_assoc. Qed.

(** One turn of the loop on a sale of the expected shape. *)
Lemma sale_body_view (d : dict value) (c : list (string * num))
    (sale : value) (product : string) (q : num)
    (tc tq : num) (u : list (string * (num * num))) (w : world) :
  prices_agree d c ->
  record_view "Product" "Quantity" sale = Some (product, q) ->
  sale_body d (tc, tq, str_dict u) sale w =
  match price_of c product with
  | Some p =>
      (w, Ok (add tc (mul p q), add tq q,
              str_dict (per_product c [(product, q)] u)))
  | None => (with_prints w [warning product], Ok (tc, tq, str_dict u))
  end.
Proof.
  intros Hd Hv. apply record_view_getitem in Hv as [Hp Hq].
  unfold sale_body, bind, lift. rewrite Hp, Hq. cbn [as_key].
  rewrite (Hd product). cbn [per_product].
  destruct (price_of c product) as [p|]; cbn [option_map].
  - rewrite dict_get_str.
    destruct (assoc product u) as [[q0 c0]|]; unfold ret;
      now rewrite dict_set_str.
  - reflexivity.
Qed.

Lemma sales_loop_view (d : dict value) (c : list (string * num)) :
  prices_agree d c ->
  forall (items : list value) (s : list (string * num)),
    records_view "Product" "Quantity" items = Some s ->
    forall tc tq u w,
      sales_loop d items (tc, tq, str_dict u) w =
      (with_prints w (warnings c s),
       Ok (fold_left add (map (line_cost c) (filter (matched c) s)) tc,
           fold_left add (map snd (filter (matched c) s)) tq,
           str_dict (per_product c s u))).
Proof.
  intros Hd. induction items as [|sale items IH]; intros s Hv tc tq u w.
  - cbn in Hv. injection Hv as <-. cbn. unfold ret.
    now rewrite with_prints_nil.
  - apply records_view_cons in Hv as ([product q] & s' & -> & Hr & Hrs).
    cbn [sales_loop]. unfold bind at 1.
    rewrite (sale_body_view d c sale product q tc tq u w Hd Hr).
    unfold warnings, matched, line_cost. cbn [filter fst snd per_product].
    destruct (price_of c product) as [p|] eqn:Hp.
    + rewrite (IH s' Hrs). cbn [negb map fold_left fst snd].
      unfold line_cost at 1. cbn [fst snd]. rewrite Hp.
      destruct (assoc product u) as [[q0 c0]|]; reflexivity.
    + rewrite (IH s' Hrs). cbn [negb map fold_left fst snd].
      now rewrite with_prints_app.
Qed.

(** [compute_total_cost] on documents of the expected shape: it returns,
    and its result and its warnings are those of the typed reading. *)
Lemma compute_total_cost_view (pc sr : value) (c s : list (string * num))
    (w : world) :
  catalogue_view pc = Some c ->
  sales_view sr = Some s ->
  compute_total_cost pc sr w =
  (with_prints w (warnings c s),
   Ok (py_sum (map (line_cost c) (filter (matched c) s)),
       py_sum (map snd (filter (matched c) s)),
       str_dict (per_product c s []))).
Proof.
  intros Hc Hs.
  destruct pc as [| |? |items |?]; try discriminate.
  destruct sr as [| |? |sales |?]; try discriminate.
  cbn in Hc, Hs.
  destruct (build_price_dict_agrees items c Hc) as (d & Hb & Hd).
  unfold compute_total_cost, bind, lift. cbn [py_iter]. rewrite Hb.
  exact (sales_loop_view d c Hd sales s Hs zero zero [] w).
Qed.

(* ----------------------------------------------------------------- *)
(** ** Order of first occurrence *)


Lemma first_occurrences_ext (l seen1 seen2 : list string) :
  (forall x, mem_string x seen1 = mem_string x seen2) ->
  first_occurrences seen1 l = first_occurrences seen2 l.
Proof.
  revert seen1 seen2. induction l as [|y l IH]; intros seen1 seen2 H.
  - reflexivity.
  - cbn. rewrite <- (H y). destruct (mem_string y seen1).
    + now apply IH.
    + f_equal. apply IH. intros x. unfold mem_string. cbn [existsb].
      f_equal. apply H.
Qed.



(** The usual equation of the order of first occurrence: the head comes
    first, and never again. *)
Lemma first_occurrences_seen (l seen : list string) (x : string) :
  first_occurrences (x :: seen) l =
  filter (fun y => negb (String.eqb y x)) (first_occurrences seen l).
Proof.
  revert seen. induction l as [|y l IH]; intros seen; [reflexivity|].
  cbn [first_occurrences].
  change (mem_string y (x :: seen))
    with (String.eqb y x || mem_string y seen).
  destruct (mem_string y seen) eqn:Ey.
  - rewrite orb_true_r. apply IH.
  - rewrite orb_false_r. destruct (String.eqb y x) eqn:Exy.
    + apply String.eqb_eq in Exy. subst y. cbn [filter].
      rewrite String.eqb_refl. cbn [negb]. rewrite <- IH.
      apply first_occurrences_ext. intros z. unfold mem_string.
      cbn [existsb]. now destruct (String.eqb z x).
    + cbn [filter]. rewrite Exy. cbn [negb]. f_equal. rewrite <- IH.
      apply first_occurrences_ext. intros z. unfold mem_string.
      cbn [existsb]. now destruct (String.eqb z x), (String.eqb z y).
Qed.

Lemma first_occurrences_cons (l : list string) (x : string) :
  first_occurrences [] (x :: l) =
  x :: filter (fun y => negb (String.eqb y x)) (first_occurrences [] l).
Proof. cbn. now rewrite first_occurrences_seen. Qed.

(* ----------------------------------------------------------------- *)
(** ** The accumulated dictionary *)

Lemma matched_price (c : list (string * num)) (product : string) (q : num) :
  matched c (product, q) =
  match price_of c product with
  | Some _ => true
  | None => false
  end.
Proof. reflexivity. Qed.


Lemma sales_of_cons (k : string) (sale : string * num)
    (s : list (string * num)) :
  sales_of k (sale :: s) =
  if String.eqb (fst sale) k then sale :: sales_of k s else sales_of k s.
Proof. reflexivity. Qed.

Lemma per_product_entry (c s : list (string * num)) (k : string) :
  forall u,
    assoc k (per_product c s u) =
    match assoc k u, sales_of k (filter (matched c) s) with
    | Some (q0, c0), lines =>
        Some (fold_left add (map snd lines) q0,
              fold_left add (map (line_cost c) lines) c0)
    | None, [] => None
    | None, line :: lines =>
        Some (fold_left add (map snd lines) (snd line),
              fold_left add (map (line_cost c) lines) (line_cost c line))
    end.
Proof.
  induction s as [|[product q] s IH]; intros u.
  - unfold sales_of. cbn [per_product filter map fold_left].
    now destruct (assoc k u) as [[q0 c0]|].
  - cbn [per_product filter]. rewrite (matched_price c product q).
    destruct (price_of c product) as [p|] eqn:Hp; [|apply IH].
    assert (Hl : line_cost c (product, q) = mul p q)
      by (unfold line_cost; cbn [fst snd]; now rewrite Hp).
    rewrite sales_of_cons. cbn [fst].
    destruct (String.eqb product k) eqn:E.
    + apply String.eqb_eq in E. subst product.
      destruct (assoc k u) as [[q0 c0]|] eqn:Hu;
        rewrite IH, assoc_set_same; cbn [map fold_left snd]; now rewrite Hl.
    + apply String.eqb_neq in E.
      destruct (assoc product u) as [[q0 c0]|] eqn:Hu;
        now rewrite IH, assoc_set_other.
Qed.

(* ----------------------------------------------------------------- *)
(** ** Prices and titles *)





(* ----------------------------------------------------------------- *)
(** ** Sequences of sales *)







(* ================================================================= *)
(** ** The aggregation *)






(* ================================================================= *)
(** ** Strings *)

Lemma str_app_nil_r (s : string) : s ++ "" = s.
Proof. induction s as [|a s IH]; cbn; [reflexivity | now rewrite IH]. Qed.

Lemma str_app_assoc (a b c : string) : (a ++ b) ++ c = a ++ b ++ c.
Proof. induction a as [|x a IH]; cbn; [reflexivity | now rewrite IH]. Qed.

Lemma str_length_app (a b : string) :
  String.length (a ++ b) = String.length a + String.length b.
Proof. induction a as [|x a IH]; cbn; [reflexivity | now rewrite IH]. Qed.

Lemma str_join_app (l1 l2 : list string) :
  str_join (l1 ++ l2) = str_join l1 ++ str_join l2.
Proof.
  induction l1 as [|x l1 IH]; cbn; [reflexivity|].
  fold (str_join (l1 ++ l2)) (str_join l1). now rewrite IH, str_app_assoc.
Qed.

Lemma display_lines_app (l1 l2 : list string) :
  display_lines (l1 ++ l2) = display_lines l1 ++ display_lines l2.
Proof. unfold display_lines. now rewrite map_app, str_join_app. Qed.

Lemma display_lines_one (s : string) : display_lines [s] = s ++ newline.
Proof. unfold display_lines. cbn. now rewrite str_app_nil_r. Qed.

Lemma get_app_skip (a r : string) (n : nat) :
  String.get (String.length a + n) (a ++ r) = String.get n r.
Proof. induction a as [|x a IH]; cbn; [reflexivity | exact IH]. Qed.

(** The fill character of a row is that of any end of it of three
    characters or more. *)
Lemma fill_char_app (a r : string) :
  3 <= String.length r -> fill_char (a ++ r) = fill_char r.
Proof.
  intros H. unfold fill_char. rewrite str_length_app.
  replace (String.length a + String.length r - 3)
    with (String.length a + (String.length r - 3)) by lia.
  apply get_app_skip.
Qed.

Lemma str_length_app_le (a r : string) (n : nat) :
  n <= String.length r -> n <= String.length (a ++ r).
Proof. rewrite str_length_app. lia. Qed.

(* ================================================================= *)
(** ** What a run prints and writes *)

Ltac break_match :=
  match goal with
  | |- context [match ?x with _ => _ end] => destruct x eqn:?
  end.

Ltac prints_nothing w :=
  exists []; split; [cbn [fst]; now rewrite (with_prints_nil w) | constructor].

(** One turn of the loop, on any sale: it only prints, and only warnings. *)
Lemma sale_body_prints (d : dict value) (t : totals) (sale : value)
    (w : world) :
  exists ws, fst (sale_body d t sale w) = with_prints w ws
             /\ Forall is_warning ws.
Proof.
  destruct t as [[tc tq] uc].
  unfold sale_body, bind, lift, ret, raise, print.
  destruct (getitem sale "Product") as [product|x]; [|prints_nothing w].
  destruct (getitem sale "Quantity") as [quantity|x]; [|prints_nothing w].
  destruct (as_key product) as [k|x]; [|prints_nothing w].
  destruct (dict_get k d) as [item_price|].
  - repeat break_match; prints_nothing w.
  - exists [warning (key_str k)]. split; [reflexivity|].
    constructor; [now exists k | constructor].
Qed.

Lemma sales_loop_prints (d : dict value) (sales : list value) :
  forall t w,
    exists ws, fst (sales_loop d sales t w) = with_prints w ws
               /\ Forall is_warning ws.
Proof.
  induction sales as [|sale sales IH]; intros t w.
  - cbn. unfold ret. prints_nothing w.
  - cbn [sales_loop]. unfold bind.
    destruct (sale_body_prints d t sale w) as (ws1 & E1 & F1).
    destruct (sale_body d t sale w) as [w1 [t1|x]]; cbn [fst] in E1; subst w1.
    + destruct (IH t1 (with_prints w ws1)) as (ws2 & E2 & F2).
      exists (ws1 ++ ws2)%list. split.
      * now rewrite E2, with_prints_app.
      * apply Forall_app. now split.
    + exists ws1. now split.
Qed.

Lemma compute_total_cost_prints (pc sr : value) (w : world) :
  exists ws, fst (compute_total_cost pc sr w) = with_prints w ws
             /\ Forall is_warning ws.
Proof.
  unfold compute_total_cost, bind, lift.
  destruct (py_iter pc) as [items|x]; [|prints_nothing w].
  destruct (build_price_dict items []) as [d|x]; [|prints_nothing w].
  destruct (py_iter sr) as [sales|x]; [|prints_nothing w].
  apply sales_loop_prints.
Qed.

(* ================================================================= *)
(** ** The run *)

(** C8: argument-count guard.  With an argument vector of any length
    other than three (the script's name and two arguments), [main] prints
    the usage message and returns: no file is opened for reading, none is
    written and the clock is not read. *)
Theorem usage_on_wrong_arity (e : env) (argv : list string) (w : world) :
  List.length argv <> 3 ->
  main e argv w =
  (World (stdout w ++ [usage]) (opened w) (written w) (ticks w), Ok tt).
Proof.
  intros H. unfold main. apply Nat.eqb_neq in H. rewrite H. reflexivity.
Qed.

(** C6, as amended: loader failures.  When opening the catalogue raises
    [FileNotFoundError], or decoding it raises [JSONDecodeError], the run
    prints the one message that names the catalogue path and returns; the
    sales path is not opened, nothing is aggregated and no file is written.
    When the catalogue loads to a value other than [None] and the sales
    path fails in one of these two ways, the one message names the sales
    path, and again no file is written. *)
Theorem load_failure_aborts (e : env) (prog f1 f2 : string) (w : world) :
  (open_json e f1 = Raise FileNotFoundError ->
   main e [prog; f1; f2] w =
   (World (stdout w ++ [not_found_message f1]) (opened w ++ [f1])
          (written w) (S (ticks w)), Ok tt))
  /\ (open_json e f1 = Raise JSONDecodeError ->
      main e [prog; f1; f2] w =
      (World (stdout w ++ [invalid_json_message f1]) (opened w ++ [f1])
             (written w) (S (ticks w)), Ok tt))
  /\ (forall pc,
        open_json e f1 = Ok pc -> is_None pc = false ->
        (open_json e f2 = Raise FileNotFoundError ->
         main e [prog; f1; f2] w =
         (World (stdout w ++ [not_found_message f2]) (opened w ++ [f1; f2])
                (written w) (S (ticks w)), Ok tt))
        /\ (open_json e f2 = Raise JSONDecodeError ->
            main e [prog; f1; f2] w =
            (World (stdout w ++ [invalid_json_message f2])
                   (opened w ++ [f1; f2]) (written w) (S (ticks w)),
             Ok tt))).
Proof.
  unfold main, bind, time_time, load_json_file, print, ret.
  cbn [List.length Nat.eqb negb nth stdout opened written ticks].
  split; [|split].
  - intros ->. reflexivity.
  - intros ->. reflexivity.
  - intros pc H1 Hn.
    split; intros H2; rewrite H1, Hn, H2;
      cbn [stdout opened written ticks]; now rewrite <- app_assoc.
Qed.


(** C3, as amended: the two sinks.  A run either writes no file, or it
    returns and has passed one and the same report text to [print] and to
    [SalesResults.txt]: the file holds exactly that text, and the display
    stream holds the warnings of the run, then that text followed by the
    newline that [print] adds. *)
Theorem report_sinks (e : env) (argv : list string) (w : world) :
  let w' := fst (main e argv w) in
  written w' = written w
  \/ exists ws text,
       snd (main e argv w) = Ok tt
       /\ Forall is_warning ws
       /\ stdout w' = (stdout w ++ ws ++ [text])%list
       /\ written w' = (written w ++ [("SalesResults.txt", text)])%list
       /\ file_content "SalesResults.txt" w' = Some text
       /\ display_text w' =
          display_text w ++ display_lines ws ++ text ++ newline.
Proof.
  cbn zeta. destruct (main e argv w) as [w' r] eqn:Em. cbn [fst snd].
  revert Em. unfold main.
  destruct (Nat.eqb (List.length argv) 3); cbn [negb];
    [|intros Em; injection Em as <- <-; left; reflexivity].
  unfold bind at 1 2, time_time, load_json_file.
  set (f1 := nth 1 argv ""). set (f2 := nth 2 argv "").
  destruct (open_json e f1) as [pc|x1];
    [|destruct x1; intros Em; injection Em as <- <-; left; reflexivity].
  destruct (is_None pc);
    [intros Em; injection Em as <- <-; left; reflexivity|].
  unfold bind at 1.
  destruct (open_json e f2) as [sr|x2];
    [|destruct x2; intros Em; injection Em as <- <-; left; reflexivity].
  destruct (is_None sr);
    [intros Em; injection Em as <- <-; left; reflexivity|].
  unfold bind at 1.
  match goal with
  | |- context [compute_total_cost pc sr ?w0] => set (w2 := w0)
  end.
  destruct (compute_total_cost_prints pc sr w2) as (ws & E & F).
  destruct (compute_total_cost pc sr w2) as [w3 [t|x]]; cbn [fst] in E;
    subst w3; [|intros Em; injection Em as <- <-; left; reflexivity].
  unfold bind, print, write_file, with_prints. subst w2.
  cbn [stdout opened written ticks].
  intros Em. injection Em as <- <-. right. exists ws. eexists.
  cbn [stdout opened written ticks].
  split; [reflexivity|]. split; [exact F|].
  split; [now rewrite <- app_assoc|]. split; [reflexivity|]. split.
  - unfold file_content. cbn [written]. rewrite rev_app_distr.
    reflexivity.
  - unfold display_text. cbn [stdout].
    rewrite <- app_assoc, !display_lines_app, display_lines_one.
    reflexivity.
Qed.

(* ================================================================= *)
(** ** The rows of the report *)

Ltac strip_row :=
  repeat (rewrite fill_char_app
            by (repeat (first [ cbn; lia | apply str_length_app_le ])));
  reflexivity.

Lemma fill_char_line_sep : fill_char line_sep_str = Some "-"%char.
Proof. reflexivity. Qed.

Lemma fill_char_header : fill_char header_row = Some " "%char.
Proof. reflexivity. Qed.

Lemma fill_char_product_row (entry : hkey * (num * num)) :
  fill_char (product_row entry) = Some " "%char.
Proof. destruct entry as [k [q co]]. unfold product_row. strip_row. Qed.

Lemma fill_char_totals_row (total_amount total_cost : num) :
  fill_char (totals_row total_amount total_cost) = Some " "%char.
Proof. unfold totals_row. strip_row. Qed.

Lemma fill_char_elapsed_row (elapsed : num) :
  fill_char (elapsed_row elapsed) = Some "x"%char.
Proof. unfold elapsed_row. strip_row. Qed.

(** C10: the elapsed-time row.  The row holds the label, then the elapsed
    time right-aligned in the second cell, then a third cell of 32 [x]
    between the borders; it is the last row but one of every report, and
    every other row ends its third cell with a space (header, product and
    totals rows) or a dash (separator rows), never with [x]. *)
Theorem elapsed_row_filled (t : totals) (elapsed : num) :
  elapsed_row elapsed =
  "|" ++ " Time Elapsed                   "
      ++ "|" ++ (" " ++ rjust (fmt_6f elapsed ++ " seconds") 30 ++ " ")
      ++ "|" ++ "xxxxxxxxxxxxxxxxxxxxxxxxxxxxxxxx"
      ++ "|" ++ newline
  /\ String.length "xxxxxxxxxxxxxxxxxxxxxxxxxxxxxxxx" = 32
  /\ fill_char (elapsed_row elapsed) = Some "x"%char
  /\ exists before,
       report_rows t elapsed
       = (before ++ [elapsed_row elapsed; line_sep_str])%list
       /\ Forall (fun row => fill_char row = Some " "%char
                             \/ fill_char row = Some "-"%char)
                 (before ++ [line_sep_str]).
Proof.
  split; [|split; [reflexivity|split; [apply fill_char_elapsed_row|]]].
  - unfold elapsed_row. cbn [str_repeat ljust String.length Nat.sub append].
    rewrite !str_app_assoc. reflexivity.
  - destruct t as [[total_cost total_amount] unitary_cost].
    exists ([line_sep_str; header_row; line_sep_str]
            ++ map product_row unitary_cost
            ++ [line_sep_str; totals_row total_amount total_cost;
                line_sep_str])%list.
    split.
    + unfold report_rows. rewrite <- !app_assoc. reflexivity.
    + assert (Hsep := fill_char_line_sep). assert (Hhead := fill_char_header).
      assert (Htot := fill_char_totals_row total_amount total_cost).
      rewrite !Forall_app. split; [split; [|split]|].
      * repeat (apply Forall_cons || apply Forall_nil); auto.
      * apply Forall_forall. intros row Hin. apply in_map_iff in Hin.
        destruct Hin as (entry & <- & _). left. apply fill_char_product_row.
      * repeat (apply Forall_cons || apply Forall_nil); auto.
      * repeat (apply Forall_cons || apply Forall_nil); auto.
Qed.

End Properties.

(* ================================================================= *)
(** * The program on concrete documents *)

Import Examples.

Example compute_total_cost_example :
  compute_total_cost catalogue sales empty_world =
  (World [warning "Ghost"] [] [] 0,
   Ok (41, 15, [(KStr "Pen", (2, 2)); (KStr "Apple", (13, 39))])%Z).
Proof. reflexivity. Qed.






Lemma usage_on_wrong_arity_witness :
  List.length ["computeSales.py"; "priceCatalogue.json"] <> 3
  /\ main env_shaped ["computeSales.py"; "priceCatalogue.json"] empty_world
     = (World [usage] [] [] 0, Ok tt).
Proof.
  assert (H : List.length ["computeSales.py"; "priceCatalogue.json"] <> 3)
    by (cbn; lia).
  split; [exact H|].
  exact (usage_on_wrong_arity env_shaped
           ["computeSales.py"; "priceCatalogue.json"] empty_world H).
Defined.

Lemma load_failure_aborts_witness :
  open_json env_nothing "priceCatalogue.json" = Raise FileNotFoundError
  /\ main env_nothing argv empty_world
     = (World [not_found_message "priceCatalogue.json"]
              ["priceCatalogue.json"] [] 1, Ok tt).
Proof.
  split; [reflexivity|].
  exact (proj1 (load_failure_aborts env_nothing "computeSales.py"
                  "priceCatalogue.json" "salesRecord.json" empty_world)
               eq_refl).
Defined.


(** C3: the claim fails: in a run without warnings the display stream
    holds the text of the file and one more newline. *)
Lemma display_differs_from_file :
  exists text,
    snd (main env_all_matched argv empty_world) = Ok tt
    /\ file_content "SalesResults.txt"
         (fst (main env_all_matched argv empty_world)) = Some text
    /\ display_text (fst (main env_all_matched argv empty_world))
       = text ++ newline
    /\ display_text (fst (main env_all_matched argv empty_world)) <> text.
Proof.
  eexists. split; [reflexivity|]. split; [vm_compute; reflexivity|].
  split; [vm_compute; reflexivity|].
  apply String.eqb_neq. vm_compute. reflexivity.
Qed.

(** C6: the claim fails: a catalogue path that exists and cannot be read
    ends the run with the exception, and no message is printed. *)
Lemma unreadable_catalogue_raises :
  open_json env_unreadable "priceCatalogue.json" = Raise PermissionError
  /\ main env_unreadable argv empty_world
     = (World [] ["priceCatalogue.json"] [] 1, Raise PermissionError).
Proof. split; reflexivity. Qed.


(** A catalogue file holding [null] loads to [None], which [main] takes for
    a failed load: the run returns without a word and without a report. *)
Example null_catalogue_is_silent :
  main env_null argv empty_world
  = (World [] ["priceCatalogue.json"] [] 1, Ok tt).
Proof. reflexivity. Qed.

(** The same titles in another order give the same keys, in the order of
    the sales. *)
Example reordered_catalogue_same_keys :
  catalogue_view catalogue_reordered = Some catalogue_reordered_pairs
  /\ snd (compute_total_cost catalogue_reordered sales empty_world)
     = Ok (41, 15, [(KStr "Pen", (2, 2)); (KStr "Apple", (13, 39))])%Z.
Proof. split; reflexivity. Qed.

(** Sales of unknown products only: two warnings and empty totals. *)
Example ghost_sales_example :
  sales_view ghost_sales = Some ghost_sales_pairs
  /\ compute_total_cost catalogue ghost_sales empty_world
     = (World [warning "Ghost"; warning "Ghoul"] [] [] 0,
        Ok (0, 0, [])%Z).
Proof. split; reflexivity. Qed.

(** A missing sales record is named after the catalogue has loaded. *)
Example sales_missing_example :
  main env_sales_missing argv empty_world
  = (World [not_found_message "salesRecord.json"]
           ["priceCatalogue.json"; "salesRecord.json"] [] 1, Ok tt).
Proof. reflexivity. Qed.

(* ================================================================= *)
(** * Further properties of the script *)

Section Further.

Context {N : Number}.

(* ----------------------------------------------------------------- *)
(** ** Loops in two parts *)

Lemma rbind_build_price_dict_app (l1 l2 : list value) :
  forall d,
    build_price_dict (l1 ++ l2) d =
    rbind (build_price_dict l1 d) (build_price_dict l2).
Proof.
  induction l1 as [|item l1 IH]; intros d; [reflexivity|].
  cbn [app build_price_dict].
  destruct (getitem item "title") as [title|x]; cbn [rbind]; [|reflexivity].
  destruct (getitem item "price") as [price|x]; cbn [rbind]; [|reflexivity].
  destruct (as_key title) as [k|x]; cbn [rbind]; [apply IH | reflexivity].
Qed.






(* ----------------------------------------------------------------- *)
(** ** What [compute_total_cost] does to documents of other shapes *)

(** X1: whatever the two documents are, [compute_total_cost] opens and
    writes no file and does not read the clock; all it does to the world is
    to print warnings. *)
Theorem compute_total_cost_only_warns (pc sr : value) (w : world) :
  exists ws,
    Forall is_warning ws
    /\ stdout (fst (compute_total_cost pc sr w)) = (stdout w ++ ws)%list
    /\ opened (fst (compute_total_cost pc sr w)) = opened w
    /\ written (fst (compute_total_cost pc sr w)) = written w
    /\ ticks (fst (compute_total_cost pc sr w)) = ticks w.
Proof.
  destruct (compute_total_cost_prints pc sr w) as (ws & E & F).
  exists ws. rewrite E. now repeat split.
Qed.


(** X3: a catalogue entry without [title] (and with a [price]), or with
    [title] and without [price], raises the [KeyError] of the missing key
    while the price dictionary is built: whatever the sales record is, it is
    not looked at and nothing is printed. *)
Theorem entry_without_field_raises (items1 items2 : list value)
    (c1 : list (string * num)) (fields : list (string * value))
    (sr : value) (w : world) :
  records_view "title" "price" items1 = Some c1 ->
  (forall price,
     assoc "title" fields = None ->
     assoc "price" fields = Some price ->
     compute_total_cost (VList (items1 ++ VDict fields :: items2)) sr w =
     (w, Raise (KeyError "title")))
  /\ (forall title,
        assoc "title" fields = Some title ->
        assoc "price" fields = None ->
        compute_total_cost (VList (items1 ++ VDict fields :: items2)) sr w =
        (w, Raise (KeyError "price"))).
Proof.
  intros H1. unfold compute_total_cost, bind, lift. cbn [py_iter].
  rewrite rbind_build_price_dict_app.
  assert (Hb := build_price_dict_view items1 c1 H1 []).
  change (str_dict []) with (@nil (hkey * value)) in Hb at 1. rewrite Hb.
  cbn [rbind build_price_dict getitem]. split.
  - intros price -> ->. reflexivity.
  - intros title -> ->. reflexivity.
Qed.

(** X4: a catalogue that is not a list of objects.  [None] and numbers are
    not iterable and raise [TypeError]; an object or a string is iterated
    over its keys or characters, which are strings and cannot be
    subscripted with ['title'], so that it raises [TypeError] unless it is
    empty, and then it counts as an empty catalogue; in a list, the first
    item that is not an object raises [TypeError].  In each case the sales
    record is not looked at and nothing is printed. *)
Theorem catalogue_of_other_shape (sr : value) (w : world) :
  compute_total_cost VNone sr w = (w, Raise TypeError)
  /\ (forall n, compute_total_cost (VNum n) sr w = (w, Raise TypeError))
  /\ (forall k v d,
        compute_total_cost (VDict ((k, v) :: d)) sr w = (w, Raise TypeError))
  /\ (forall a s,
        compute_total_cost (VStr (String a s)) sr w = (w, Raise TypeError))
  /\ compute_total_cost (VDict []) sr w = compute_total_cost (VList []) sr w
  /\ compute_total_cost (VStr "") sr w = compute_total_cost (VList []) sr w
  /\ (forall items1 c1 item items2,
        records_view "title" "price" items1 = Some c1 ->
        (forall fields, item <> VDict fields) ->
        compute_total_cost (VList (items1 ++ item :: items2)) sr w =
        (w, Raise TypeError)).
Proof.
  repeat (split; [try reflexivity; intros; reflexivity|]).
  intros items1 c1 item items2 H1 Hn.
  unfold compute_total_cost, bind, lift. cbn [py_iter].
  rewrite rbind_build_price_dict_app.
  assert (Hb := build_price_dict_view items1 c1 H1 []).
  change (str_dict []) with (@nil (hkey * value)) in Hb at 1. rewrite Hb.
  cbn [rbind build_price_dict].
  destruct item as [| |? |? |fields]; try reflexivity.
  now destruct (Hn fields).
Qed.




(* ----------------------------------------------------------------- *)
(** ** Runs that end early *)

(** X8: a file that holds the JSON document [null] loads to [None], which
    [main] takes for a failed load.  With [null] as the catalogue, or as
    the sales record after a catalogue that loaded, the run returns at once:
    nothing is printed, nothing is aggregated and no file is written. *)
Theorem null_document_ends_silently (e : env) (prog f1 f2 : string)
    (w : world) :
  (open_json e f1 = Ok VNone ->
   main e [prog; f1; f2] w =
   (World (stdout w) (opened w ++ [f1]) (written w) (S (ticks w)), Ok tt))
  /\ (forall pc,
        open_json e f1 = Ok pc -> is_None pc = false ->
        open_json e f2 = Ok VNone ->
        main e [prog; f1; f2] w =
        (World (stdout w) (opened w ++ [f1; f2]) (written w) (S (ticks w)),
         Ok tt)).
Proof.
  unfold main, bind, time_time, load_json_file, ret.
  cbn [List.length Nat.eqb negb nth stdout opened written ticks].
  split.
  - intros ->. reflexivity.
  - intros pc -> -> ->. cbn [is_None stdout opened written ticks].
    now rewrite <- app_assoc.
Qed.

(** X9: [load_json_file] handles two exceptions only.  Any other exception
    raised while a path is opened or decoded leaves [main]: nothing is
    printed, no report is written, and when it is the catalogue that fails
    the sales path is not opened. *)
Theorem other_load_errors_propagate (e : env) (prog f1 f2 : string)
    (x : exn) (w : world) :
  x <> FileNotFoundError ->
  x <> JSONDecodeError ->
  (open_json e f1 = Raise x ->
   main e [prog; f1; f2] w =
   (World (stdout w) (opened w ++ [f1]) (written w) (S (ticks w)), Raise x))
  /\ (forall pc,
        open_json e f1 = Ok pc -> is_None pc = false ->
        open_json e f2 = Raise x ->
        main e [prog; f1; f2] w =
        (World (stdout w) (opened w ++ [f1; f2]) (written w) (S (ticks w)),
         Raise x)).
Proof.
  intros N1 N2.
  unfold main, bind, time_time, load_json_file, ret.
  cbn [List.length Nat.eqb negb nth stdout opened written ticks].
  split.
  - intros ->. destruct x; try contradiction; reflexivity.
  - intros pc -> -> ->. cbn [stdout opened written ticks].
    rewrite <- app_assoc. destruct x; try contradiction; reflexivity.
Qed.


(* ----------------------------------------------------------------- *)
(** ** The width of the rows *)

Lemma str_repeat_length (n : nat) : String.length (str_repeat " " n) = n.
Proof. induction n as [|n IH]; cbn; [reflexivity | now rewrite IH]. Qed.

Lemma rjust_length (s : string) (w : nat) :
  String.length (rjust s w) = Nat.max w (String.length s).
Proof. unfold rjust. rewrite str_length_app, str_repeat_length. lia. Qed.

Lemma product_row_length (k : hkey) (q co : num) :
  String.length (product_row (k, (q, co))) =
  11 + Nat.max 30 (String.length (key_str k))
     + Nat.max 30 (String.length (str_num q))
     + Nat.max 30 (S (String.length (fmt_2f co))).
Proof.
  unfold product_row. rewrite !str_length_app, !rjust_length.
  rewrite str_length_app. cbn [String.length newline]. lia.
Qed.

Lemma totals_row_length (total_amount total_cost : num) :
  String.length (totals_row total_amount total_cost) =
  41 + Nat.max 30 (String.length (str_num total_amount))
     + Nat.max 30 (S (String.length (fmt_2f total_cost))).
Proof.
  unfold totals_row. rewrite !str_length_app, !rjust_length.
  rewrite str_length_app. cbn. lia.
Qed.

Lemma elapsed_row_length (elapsed : num) :
  String.length (elapsed_row elapsed) =
  71 + Nat.max 30 (String.length (fmt_6f elapsed) + 8).
Proof.
  unfold elapsed_row. rewrite !str_length_app, !rjust_length.
  rewrite str_length_app. cbn. lia.
Qed.

(** X11: the table is aligned when every cell fits.  When the product
    names and the quantities take at most 30 characters, the costs at most
    29 (before the dollar sign) and the elapsed time at most 22 (before
    [" seconds"]), every row of the report, borders included, is as long as
    a separator row: 100 characters and the newline. *)
Theorem report_rows_aligned (total_cost total_amount : num)
    (unitary_cost : dict (num * num)) (elapsed : num) :
  Forall (fun entry =>
            String.length (key_str (fst entry)) <= 30
            /\ String.length (str_num (fst (snd entry))) <= 30
            /\ String.length (fmt_2f (snd (snd entry))) <= 29)
         unitary_cost ->
  String.length (str_num total_amount) <= 30 ->
  String.length (fmt_2f total_cost) <= 29 ->
  String.length (fmt_6f elapsed) <= 22 ->
  String.length line_sep_str = 101
  /\ Forall (fun row => String.length row = String.length line_sep_str)
            (report_rows (total_cost, total_amount, unitary_cost) elapsed).
Proof.
  intros Hrows Hq Hc He. split; [reflexivity|].
  assert (Hsep : String.length line_sep_str = 101) by reflexivity.
  assert (Hhead : String.length header_row = 101) by reflexivity.
  assert (Htot : String.length (totals_row total_amount total_cost) = 101)
    by (rewrite totals_row_length; lia).
  assert (Hel : String.length (elapsed_row elapsed) = 101)
    by (rewrite elapsed_row_length; lia).
  unfold report_rows. rewrite Hsep, !Forall_app. split; [|split].
  - repeat (apply Forall_cons || apply Forall_nil); assumption.
  - apply Forall_forall. intros row Hin. apply in_map_iff in Hin.
    destruct Hin as ([k [q co]] & <- & Hin).
    rewrite Forall_forall in Hrows. destruct (Hrows _ Hin) as (H1 & H2 & H3).
    cbn [fst snd] in H1, H2, H3. rewrite product_row_length. lia.
  - repeat (apply Forall_cons || apply Forall_nil); assumption.
Qed.

(** X12: a cell is never cut.  The row of a product holds the whole name,
    quantity and cost, and a name of more than 30 characters makes the row
    longer than the separator rows by at least the excess. *)
Theorem long_name_widens_row (k : hkey) (q co : num) :
  30 < String.length (key_str k) ->
  (exists before after,
      product_row (k, (q, co)) = before ++ key_str k ++ after)
  /\ String.length line_sep_str + (String.length (key_str k) - 30)
     <= String.length (product_row (k, (q, co))).
Proof.
  intros Hlong. split.
  - exists ("| " ++ str_repeat " " (30 - String.length (key_str k))).
    eexists. unfold product_row, rjust.
    rewrite !str_app_assoc. reflexivity.
  - rewrite product_row_length.
    change (String.length line_sep_str) with 101. lia.
Qed.

End Further.

(* ================================================================= *)
(** * Exact arithmetic

    With numbers whose addition is associative and commutative and has [0]
    as neutral element, such as the integers, the totals of the report are
    the sums of its columns. *)

Section ExactArithmetic.

Context {N : Number}.

Hypothesis add_assoc : forall a b c : num, add a (add b c) = add (add a b) c.
Hypothesis add_comm : forall a b : num, add a b = add b a.
Hypothesis add_zero_l : forall a : num, add zero a = a.

Lemma fold_add_acc (l : list num) :
  forall a, fold_left add l a = add a (py_sum l).
Proof.
  unfold py_sum. induction l as [|x l IH]; intros a; cbn [fold_left].
  - now rewrite add_comm, add_zero_l.
  - rewrite (IH (add a x)), (IH (add zero x)), add_zero_l.
    now rewrite add_assoc.
Qed.

Lemma py_sum_cons (x : num) (l : list num) :
  py_sum (x :: l) = add x (py_sum l).
Proof.
  unfold py_sum at 1. cbn [fold_left]. now rewrite fold_add_acc, add_zero_l.
Qed.

Lemma assoc_set_new {V : Type} (k : string) (v : V) (u : list (string * V)) :
  assoc k u = None -> assoc_set k v u = (u ++ [(k, v)])%list.
Proof.
  unfold assoc, assoc_set. induction u as [|[k' v'] u IH]; cbn;
    [reflexivity|].
  destruct (String.eqb k' k); [discriminate|].
  intros H. now rewrite (IH H).
Qed.

(** The sum of a column after a line has been added to an entry. *)
Lemma column_sum_set (g : num * num -> num) (k : string)
    (v0 v : num * num) (x : num) (u : list (string * (num * num))) :
  assoc k u = Some v0 ->
  g v = add (g v0) x ->
  py_sum (map (fun e => g (snd e)) (assoc_set k v u)) =
  add (py_sum (map (fun e => g (snd e)) u)) x.
Proof.
  intros Hk Hg. unfold assoc, assoc_set in *.
  induction u as [|[k' v'] u IH]; cbn [alist_get alist_set] in Hk |- *;
    [discriminate|].
  destruct (String.eqb k' k).
  - injection Hk as ->. cbn [map snd]. rewrite !py_sum_cons, Hg.
    rewrite <- !add_assoc. f_equal. apply add_comm.
  - cbn [map snd]. rewrite !py_sum_cons, (IH Hk). now rewrite add_assoc.
Qed.

Lemma column_sum_new (g : num * num -> num) (k : string) (v : num * num)
    (u : list (string * (num * num))) :
  assoc k u = None ->
  py_sum (map (fun e => g (snd e)) (assoc_set k v u)) =
  add (py_sum (map (fun e => g (snd e)) u)) (g v).
Proof.
  intros Hk. rewrite (assoc_set_new k v u Hk), map_app.
  unfold py_sum. now rewrite fold_left_app.
Qed.

Lemma per_product_columns (c s : list (string * num)) :
  forall u,
    py_sum (map (fun e => fst (snd e)) (per_product c s u)) =
    fold_left add (map snd (filter (matched c) s))
      (py_sum (map (fun e => fst (snd e)) u))
    /\ py_sum (map (fun e => snd (snd e)) (per_product c s u)) =
       fold_left add (map (line_cost c) (filter (matched c) s))
         (py_sum (map (fun e => snd (snd e)) u)).
Proof.
  induction s as [|[product q] s IH]; intros u; [split; reflexivity|].
  cbn [per_product filter]. rewrite matched_price.
  destruct (price_of c product) as [p|] eqn:Hp; [|apply IH].
  assert (Hl : line_cost c (product, q) = mul p q)
    by (unfold line_cost; cbn [fst snd]; now rewrite Hp).
  cbn [map fold_left snd]. rewrite Hl.
  destruct (assoc product u) as [[q0 c0]|] eqn:Hu.
  - destruct (IH (assoc_set product (add q0 q, add c0 (mul p q)) u))
      as [-> ->].
    rewrite (column_sum_set fst product (q0, c0)
               (add q0 q, add c0 (mul p q)) q u Hu eq_refl).
    now rewrite (column_sum_set snd product (q0, c0)
                   (add q0 q, add c0 (mul p q)) (mul p q) u Hu eq_refl).
  - destruct (IH (assoc_set product (q, mul p q) u)) as [-> ->].
    now rewrite (column_sum_new fst product _ u Hu),
                (column_sum_new snd product _ u Hu).
Qed.

(** X13: with exact arithmetic, the total quantity and the total cost that
    [compute_total_cost] returns are the sums of the quantities and of the
    costs of the entries of its per-product dictionary: the totals row of
    the report adds up the product rows. *)
Theorem totals_add_up_entries (pc sr : value) (c s : list (string * num))
    (w : world) :
  catalogue_view pc = Some c ->
  sales_view sr = Some s ->
  exists total_cost total_quantity unitary_cost,
    snd (compute_total_cost pc sr w)
    = Ok (total_cost, total_quantity, unitary_cost)
    /\ total_quantity = py_sum (map (fun e => fst (snd e)) unitary_cost)
    /\ total_cost = py_sum (map (fun e => snd (snd e)) unitary_cost).
Proof.
  intros Hc Hs. rewrite (compute_total_cost_view pc sr c s w Hc Hs).
  do 3 eexists. split; [reflexivity|].
  destruct (per_product_columns c s []) as [Hq Hco].
  unfold str_dict. rewrite !map_map. cbn [fst snd].
  rewrite Hq, Hco. split; reflexivity.
Qed.

Lemma py_sum_perm (l l' : list num) :
  Permutation l l' -> py_sum l = py_sum l'.
Proof.
  induction 1 as [|x l l' _ IH|x y l|l l' l'' _ IH1 _ IH2].
  - reflexivity.
  - now rewrite !py_sum_cons, IH.
  - rewrite !py_sum_cons, !add_assoc. f_equal. apply add_comm.
  - now rewrite IH1.
Qed.

Lemma filter_perm {A : Type} (f : A -> bool) (l l' : list A) :
  Permutation l l' -> Permutation (filter f l) (filter f l').
Proof.
  induction 1 as [|x l l' _ IH|x y l|l l' l'' _ IH1 _ IH2]; cbn [filter].
  - constructor.
  - destruct (f x); [now constructor | exact IH].
  - destruct (f x), (f y); try reflexivity. apply perm_swap.
  - now transitivity (filter f l').
Qed.

(** An entry as the sums of the lines of its product. *)
Lemma per_product_entry_sums (c s : list (string * num)) (k : string) :
  assoc k (per_product c s []) =
  match sales_of k (filter (matched c) s) with
  | [] => None
  | lines => Some (py_sum (map snd lines), py_sum (map (line_cost c) lines))
  end.
Proof.
  rewrite per_product_entry. cbn [assoc alist_get].
  destruct (sales_of k (filter (matched c) s)) as [|line lines];
    [reflexivity|].
  cbn [map]. now rewrite !py_sum_cons, !fold_add_acc.
Qed.

(** X14: with exact arithmetic, the order of the sales only decides the
    order of the rows.  Two sales records that hold the same sales in
    different orders give the same total cost, the same total quantity and,
    product by product, the same entry. *)
Theorem totals_independent_of_order (pc sr sr' : value)
    (c s s' : list (string * num)) (w : world) :
  catalogue_view pc = Some c ->
  sales_view sr = Some s ->
  sales_view sr' = Some s' ->
  Permutation s s' ->
  exists total_cost total_quantity unitary_cost unitary_cost',
    snd (compute_total_cost pc sr w)
    = Ok (total_cost, total_quantity, unitary_cost)
    /\ snd (compute_total_cost pc sr' w)
       = Ok (total_cost, total_quantity, unitary_cost')
    /\ forall product,
         dict_get (KStr product) unitary_cost'
         = dict_get (KStr product) unitary_cost.
Proof.
  intros Hc Hs Hs' Hperm.
  rewrite (compute_total_cost_view pc sr c s w Hc Hs).
  rewrite (compute_total_cost_view pc sr' c s' w Hc Hs').
  assert (Hf := filter_perm (matched c) s s' Hperm).
  do 4 eexists. split; [reflexivity|]. split.
  - cbn [snd]. do 3 f_equal.
    + symmetry. apply py_sum_perm. now apply Permutation_map.
    + symmetry. apply py_sum_perm. now apply Permutation_map.
  - intros product. rewrite !dict_get_str, !per_product_entry_sums.
    assert (Hk := filter_perm
                    (fun sale : string * num => String.eqb (fst sale) product)
                    _ _ Hf).
    fold (sales_of product (filter (matched c) s)) in Hk.
    fold (sales_of product (filter (matched c) s')) in Hk.
    destruct (sales_of product (filter (matched c) s)) as [|l1 L1] eqn:E1,
             (sales_of product (filter (matched c) s')) as [|l2 L2] eqn:E2.
    + reflexivity.
    + apply Permutation_nil in Hk. discriminate Hk.
    + apply Permutation_sym, Permutation_nil in Hk. discriminate Hk.
    + cbn zeta. f_equal.
      f_equal; apply py_sum_perm, Permutation_map;
        first [exact Hk | now symmetry].
Qed.

End ExactArithmetic.

(* ================================================================= *)
(** * The further properties on concrete documents *)

Import Shapes.


Lemma entry_without_field_raises_witness :
  records_view "title" "price" [entry "Apple" 2] = Some [("Apple", 2%Z)]
  /\ assoc "title" entry_without_price = Some (VStr "Ink")
  /\ assoc "price" entry_without_price = None
  /\ compute_total_cost
       (VList ([entry "Apple" 2] ++ VDict entry_without_price
               :: [entry "Pen" 1])%list) sales empty_world
     = (empty_world, Raise (KeyError "price")).
Proof.
  repeat (split; [reflexivity|]).
  exact (proj2 (entry_without_field_raises [entry "Apple" 2]
                  [entry "Pen" 1] [("Apple", 2%Z)] entry_without_price
                  sales empty_world eq_refl)
               (VStr "Ink") eq_refl eq_refl).
Defined.

Lemma catalogue_of_other_shape_witness :
  records_view "title" "price" [entry "Apple" 2] = Some [("Apple", 2%Z)]
  /\ (forall fields, VStr "Pen" <> VDict fields)
  /\ compute_total_cost
       (VList ([entry "Apple" 2] ++ VStr "Pen" :: [entry "Ink" 4])%list)
       sales empty_world
     = (empty_world, Raise TypeError).
Proof.
  assert (H : forall fields : list (string * value),
             VStr "Pen" <> VDict fields) by (intros fields; discriminate).
  split; [reflexivity|]. split; [exact H|].
  exact (proj2 (proj2 (proj2 (proj2 (proj2 (proj2
           (catalogue_of_other_shape sales empty_world))))))
           [entry "Apple" 2] [("Apple", 2%Z)] (VStr "Pen") [entry "Ink" 4]
           eq_refl H).
Defined.




Lemma null_document_ends_silently_witness :
  open_json env_null "priceCatalogue.json" = Ok VNone
  /\ main env_null argv empty_world
     = (World [] ["priceCatalogue.json"] [] 1, Ok tt).
Proof.
  split; [reflexivity|].
  exact (proj1 (null_document_ends_silently env_null "computeSales.py"
                  "priceCatalogue.json" "salesRecord.json" empty_world)
               eq_refl).
Defined.

Lemma other_load_errors_propagate_witness :
  PermissionError <> FileNotFoundError
  /\ PermissionError <> JSONDecodeError
  /\ open_json env_unreadable "priceCatalogue.json" = Raise PermissionError
  /\ main env_unreadable argv empty_world
     = (World [] ["priceCatalogue.json"] [] 1, Raise PermissionError).
Proof.
  assert (H1 : PermissionError <> FileNotFoundError) by discriminate.
  assert (H2 : PermissionError <> JSONDecodeError) by discriminate.
  split; [exact H1|]. split; [exact H2|]. split; [reflexivity|].
  exact (proj1 (other_load_errors_propagate env_unreadable "computeSales.py"
                  "priceCatalogue.json" "salesRecord.json" PermissionError
                  empty_world H1 H2)
               eq_refl).
Defined.


Lemma report_rows_aligned_witness :
  String.length (str_num 15%Z) <= 30
  /\ String.length (fmt_2f 41%Z) <= 29
  /\ String.length (fmt_6f 1%Z) <= 22
  /\ Forall (fun row => String.length row = String.length line_sep_str)
            (report_rows
               (41%Z, 15%Z, [(KStr "Pen", (2, 2)); (KStr "Apple", (13, 39))]%Z)
               1%Z).
Proof.
  assert (H1 : String.length (str_num 15%Z) <= 30) by (cbn; lia).
  assert (H2 : String.length (fmt_2f 41%Z) <= 29) by (cbn; lia).
  assert (H3 : String.length (fmt_6f 1%Z) <= 22) by (cbn; lia).
  split; [exact H1|]. split; [exact H2|]. split; [exact H3|].
  refine (proj2 (report_rows_aligned 41%Z 15%Z
                   [(KStr "Pen", (2, 2)); (KStr "Apple", (13, 39))]%Z 1%Z
                   _ H1 H2 H3)).
  repeat (apply Forall_cons || apply Forall_nil); cbn; lia.
Defined.

Lemma long_name_widens_row_witness :
  30 < String.length (key_str (KStr long_name))
  /\ String.length line_sep_str
     + (String.length (key_str (KStr long_name)) - 30)
     <= String.length (product_row (KStr long_name, (1%Z, 2%Z))).
Proof.
  assert (H : 30 < String.length (key_str (KStr long_name))) by (cbn; lia).
  split; [exact H|].
  exact (proj2 (long_name_widens_row (KStr long_name) 1%Z 2%Z H)).
Defined.

Lemma totals_add_up_entries_witness :
  catalogue_view catalogue = Some catalogue_pairs
  /\ sales_view sales = Some sales_pairs
  /\ exists total_cost total_quantity unitary_cost,
       snd (compute_total_cost catalogue sales empty_world)
       = Ok (total_cost, total_quantity, unitary_cost)
       /\ total_quantity = py_sum (map (fun e => fst (snd e)) unitary_cost)
       /\ total_cost = py_sum (map (fun e => snd (snd e)) unitary_cost).
Proof.
  split; [reflexivity|]. split; [reflexivity|].
  exact (totals_add_up_entries (N := ZNumber)
           Z.add_assoc Z.add_comm Z.add_0_l
           catalogue sales catalogue_pairs sales_pairs empty_world
           eq_refl eq_refl).
Defined.

Lemma totals_independent_of_order_witness :
  catalogue_view catalogue = Some catalogue_pairs
  /\ sales_view sales = Some sales_pairs
  /\ sales_view sales_swapped = Some sales_swapped_pairs
  /\ Permutation sales_pairs sales_swapped_pairs
  /\ exists total_cost total_quantity unitary_cost unitary_cost',
       snd (compute_total_cost catalogue sales empty_world)
       = Ok (total_cost, total_quantity, unitary_cost)
       /\ snd (compute_total_cost catalogue sales_swapped empty_world)
          = Ok (total_cost, total_quantity, unitary_cost')
       /\ forall product,
            dict_get (KStr product) unitary_cost'
            = dict_get (KStr product) unitary_cost.
Proof.
  assert (H : Permutation sales_pairs sales_swapped_pairs)
    by apply perm_swap.
  repeat (split; [reflexivity|]). split; [exact H|].
  exact (totals_independent_of_order (N := ZNumber)
           Z.add_assoc Z.add_comm Z.add_0_l
           catalogue sales sales_swapped catalogue_pairs sales_pairs
           sales_swapped_pairs empty_world eq_refl eq_refl eq_refl H).
Defined.
